(** * The light-client proxy command ([cmd/tendermint/commands/lite.go])

    A shallow embedding of [runProxy], [checkForExistingProviders] and
    [saveProviders], together with the properties of the bootstrap
    decision, the persisted provider record and the run lifecycle.

    The command talks to a number of collaborators (the key-value store,
    the light-client constructors, the RPC transport, the proxy server).
    Their answers are inputs of the model, collected in [World]; every
    call to them is recorded, in program order, in a trace of [Event]s. *)

From Stdlib Require Import Ascii QArith.
From stdpp Require Import base numbers strings gmap list.

Local Open Scope string_scope.
Local Open Scope Z_scope.

(** ** Go values *)

Module Go.

(** [int64], and [time.Duration] which is an [int64] count of
    nanoseconds.  Arithmetic wraps around silently. *)
Definition MinInt64 : Z := - 2 ^ 63.
Definition MaxInt64 : Z := 2 ^ 63 - 1.

Definition int64_range (z : Z) : Prop := MinInt64 <= z <= MaxInt64.

Definition wrap64 (z : Z) : Z := (z + 2 ^ 63) mod 2 ^ 64 - 2 ^ 63.

Definition add64 (a b : Z) : Z := wrap64 (a + b).
Definition mul64 (a b : Z) : Z := wrap64 (a * b).

(** [time.Second] *)
Definition Second : Z := 1000000000.

(** The [error] interface.  [errors_New] and [fmt_Errorf] are the two
    constructors the command itself uses ([%w] wraps the cause, [args]
    are the arguments before it);
    [http_ErrServerClosed] is the sentinel of [net/http]; [foreign] is
    any error value handed back by a collaborator. *)
Inductive error : Type :=
| errors_New (msg : string)
| fmt_Errorf (format : string) (args : list string) (cause : error)
| http_ErrServerClosed
| foreign (msg : string).

(** [err != http.ErrServerClosed], on a possibly nil [err]. *)
Definition isnt_ErrServerClosed (err : option error) : bool :=
  match err with
  | Some http_ErrServerClosed => false
  | _ => true
  end.

(** [strings.Split(s, sep)] for a separator of one character: the
    pieces of [s] between the separators, in order; the empty string
    gives one empty piece. *)
Fixpoint Split (s : string) (sep : Ascii.ascii) : list string :=
  match s with
  | EmptyString => [EmptyString]
  | String c rest =>
      if Ascii.eqb c sep then EmptyString :: Split rest sep
      else match Split rest sep with
           | piece :: pieces => String c piece :: pieces
           | [] => [String c EmptyString]
           end
  end.

(** [strings.Join(elems, sep)], used to state what [Split] undoes. *)
Fixpoint Join (elems : list string) (sep : Ascii.ascii) : string :=
  match elems with
  | [] => EmptyString
  | [e] => e
  | e :: rest => e +:+ String sep (Join rest sep)
  end.

End Go.

Import Go.

(** ** Data of the command *)

(** The package-level flag variables, as [init] registers them. *)
Record Flags : Type := {
  listenAddr : string;
  primaryAddr : string;
  witnessAddrsJoined : string;
  home : string;
  maxOpenConnections : Z;
  sequential : bool;
  trustingPeriod : Z;
  trustedHeight : Z;
  trustedHash : list Byte.byte;
  trustLevelStr : string;
  verbose : bool
}.

(** The defaults given to the flag set in [init]. *)
Definition defaultFlags : Flags := {|
  listenAddr := "tcp://localhost:8888";
  primaryAddr := "";
  witnessAddrsJoined := "";
  home := ".tendermint-light";
  maxOpenConnections := 900;
  sequential := false;
  trustingPeriod := mul64 168 (3600 * Second);
  trustedHeight := 1;
  trustedHash := [];
  trustLevelStr := "1/3";
  verbose := false
|}.

(** [tmmath.Fraction] *)
Record Fraction : Type := { Numerator : Z; Denominator : Z }.

(** [light.TrustOptions] *)
Record TrustOptions : Type := {
  Period : Z;
  Height : Z;
  Hash : list Byte.byte
}.

(** The verification strategy attached to a client by the options
    [light.SequentialVerification()] and
    [light.SkippingVerification(trustLevel)]. *)
Inductive Verification : Type :=
| SequentialVerification
| SkippingVerification (trustLevel : Fraction).

(** A call to one of the two constructors of the light client, with the
    arguments [runProxy] passes; [dbs.New(db, chainID)] is kept as the
    chain identifier that name-spaces the store, and the option
    [light.Logger(logger)], the same in all four calls, is left out.  The
    client handle the call returns is identified with the call that made
    it. *)
Inductive Client : Type :=
| NewHTTPClient (chainID : string) (trustOptions : TrustOptions)
    (primary : string) (witnesses : list string) (store : string)
    (mode : Verification)
| NewHTTPClientFromTrustedStore (chainID : string) (period : Z)
    (primary : string) (witnesses : list string) (store : string)
    (mode : Verification).

Definition client_mode (c : Client) : Verification :=
  match c with
  | NewHTTPClient _ _ _ _ _ m => m
  | NewHTTPClientFromTrustedStore _ _ _ _ _ m => m
  end.

Definition client_witnesses (c : Client) : list string :=
  match c with
  | NewHTTPClient _ _ _ ws _ _ => ws
  | NewHTTPClientFromTrustedStore _ _ _ ws _ _ => ws
  end.

Definition client_primary (c : Client) : string :=
  match c with
  | NewHTTPClient _ _ p _ _ _ => p
  | NewHTTPClientFromTrustedStore _ _ p _ _ _ => p
  end.

(** Which of the two constructors made the client. *)
Definition is_fresh (c : Client) : bool :=
  match c with
  | NewHTTPClient _ _ _ _ _ _ => true
  | NewHTTPClientFromTrustedStore _ _ _ _ _ _ => false
  end.

Definition is_sequential (v : Verification) : bool :=
  match v with
  | SequentialVerification => true
  | SkippingVerification _ => false
  end.

(** [rpcserver.Config] *)
Record Config : Type := {
  MaxOpenConnections : Z;
  ReadTimeout : Z;
  WriteTimeout : Z;
  MaxBodyBytes : Z;
  MaxHeaderBytes : Z
}.

(** The fields of [config.RPC] the command reads. *)
Record RPCConfig : Type := {
  RPC_MaxBodyBytes : Z;
  RPC_MaxHeaderBytes : Z;
  TimeoutBroadcastTxCommit : Z
}.

(** [lproxy.Proxy]; its [Client] is [lrpc.NewClient(rpcClient, c)], kept
    as the remote of the transport client and the light client. *)
Record Proxy : Type := {
  Addr : string;
  Cfg : Config;
  ProxyClient : string * Client
}.

(** ** Collaborators *)

(** Everything the command observes of its surroundings.  The store
    fails or not by a schedule over the operations performed on it so
    far, so that a fault may be transient.  [DefaultConfig] is
    [rpcserver.DefaultConfig()] and [config_RPC] the [RPC] section of the
    package-level [config]; neither is declared in this file of the
    repository, so both are inputs. *)
Record World : Type := {
  NewGoLevelDB_err : option error;
  db_fault : nat -> option error;
  light_err : Client -> option error;
  rpchttp_New_err : string -> string -> option error;
  DefaultConfig : Config;
  config_RPC : RPCConfig;
  ListenAndServe_result : Proxy -> option error
}.

(** What is recorded of a run, in program order. *)
Inductive Event : Type :=
| EvAllowLevel (lvl : string)
| EvInfo (msg : string) (key value : string)
| EvError (msg : string) (err : option error)
| EvNewGoLevelDB (name dir : string)
| EvGet (key : string) (err : option error)
| EvSet (key value : string) (err : option error)
| EvLight (c : Client)
| EvRPCNew (remote wsEndpoint : string)
| EvTrapSignal
| EvListenAndServe (p : Proxy).

(** The state threaded through a run: the content of the key-value store
    under the home directory, the number of operations performed on it,
    and the trace. *)
Record State : Type := {
  db : gmap string string;
  ops : nat;
  trace : list Event
}.

Definition initial (content : gmap string string) : State :=
  {| db := content; ops := 0; trace := [] |}.

(** ** A state monad for the command *)

Definition M (A : Type) : Type := State -> A * State.

#[global] Instance M_ret : MRet M := fun A a s => (a, s).
#[global] Instance M_bind : MBind M :=
  fun A B f m s => let '(a, s') := m s in f a s'.

Definition emit (e : Event) : M unit :=
  fun s => (tt, {| db := db s; ops := ops s; trace := trace s ++ [e] |}).

Section Collaborators.

Variable w : World.

(** [dbm.NewGoLevelDB(name, dir)] *)
Definition NewGoLevelDB (name dir : string) : M (option error) :=
  emit (EvNewGoLevelDB name dir);; mret (NewGoLevelDB_err w).

(** [db.Get(key)]: the value stored under [key], nil when there is
    none; or an error. *)
Definition Get (key : string) : M (option string * option error) :=
  fun s =>
    let err := db_fault w (ops s) in
    let r := match err with
             | Some _ => None
             | None => db s !! key
             end in
    ((r, err),
     {| db := db s; ops := S (ops s); trace := trace s ++ [EvGet key err] |}).

(** [db.Set(key, value)]: stores the value, or reports an error and
    leaves the store as it was. *)
Definition Set_ (key value : string) : M (option error) :=
  fun s =>
    let err := db_fault w (ops s) in
    let content := match err with
                   | Some _ => db s
                   | None => <[key := value]> (db s)
                   end in
    (err,
     {| db := content; ops := S (ops s);
        trace := trace s ++ [EvSet key value err] |}).

(** [string(bytes)] of a possibly nil byte slice. *)
Definition string_of_bytes (b : option string) : string := default "" b.

(** The two constructors of [light]; whether they succeed is the
    world's business.  The records the light client keeps for itself in
    the store it is handed, under its chain identifier, are not followed:
    [db] is the store as the command itself reads and writes it, that is
    its two provider entries. *)
Definition light_New (c : Client) : M (Client * option error) :=
  emit (EvLight c);; mret (c, light_err w c).

(** [rpchttp.New(remote, wsEndpoint)] *)
Definition rpchttp_New (remote wsEndpoint : string)
  : M (string * option error) :=
  emit (EvRPCNew remote wsEndpoint);;
  mret (remote, rpchttp_New_err w remote wsEndpoint).

(** [p.ListenAndServe()] blocks until the server stops and returns why. *)
Definition ListenAndServe (p : Proxy) : M (option error) :=
  emit (EvListenAndServe p);; mret (ListenAndServe_result w p).

(** ** The provider record *)

(** [checkForExistingProviders(db)]: the primary under key ["p"] and the
    witnesses under key ["w"], split at the commas. *)
Definition checkForExistingProviders
  : M (string * list string * option error) :=
  '(primaryBytes, err) ← Get "p";
  match err with
  | Some e => mret ("", [""], Some e)
  | None =>
      '(witnessesBytes, err) ← Get "w";
      match err with
      | Some e => mret ("", [""], Some e)
      | None =>
          let witnessesAddrs :=
            Split (string_of_bytes witnessesBytes) "," in
          mret (string_of_bytes primaryBytes, witnessesAddrs, None)
      end
  end.

(** [saveProviders(db, primaryAddr, witnessesAddrs)]: two writes, the
    second only if the first went through. *)
Definition saveProviders (primaryAddr witnessesAddrs : string)
  : M (option error) :=
  err ← Set_ "p" primaryAddr;
  match err with
  | Some e => mret (Some (fmt_Errorf "failed to save primary provider: %w" [] e))
  | None =>
      err ← Set_ "w" witnessesAddrs;
      match err with
      | Some e =>
          mret (Some (fmt_Errorf "failed to save witness providers: %w" [] e))
      | None => mret None
      end
  end.

End Collaborators.

(** ** The trust level *)

Module TrustLevel.

Definition digit (c : Ascii.ascii) : option Z :=
  let n := Z.of_nat (nat_of_ascii c) in
  if (48 <=? n) && (n <=? 57) then Some (n - 48) else None.

Fixpoint digits (s : string) (acc : Z) : option Z :=
  match s with
  | EmptyString => Some acc
  | String c rest =>
      match digit c with
      | Some d => digits rest (10 * acc + d)
      | None => None
      end
  end.

(** A non-empty run of decimal digits. *)
Definition number (s : string) : option Z :=
  match s with
  | EmptyString => None
  | _ => digits s 0
  end.

(** Modelled from the spec: what it is for a trust-level string to
    parse as a fraction.  The spec gives the default [1/3] and calls the
    flag a fraction string; the string is read as numerator, one slash,
    denominator, both decimal numbers. *)
Definition parse (f : string) : option Fraction :=
  match Split f "/" with
  | [n; d] =>
      match number n, number d with
      | Some n, Some d => Some {| Numerator := n; Denominator := d |}
      | _, _ => None
      end
  | _ => None
  end.

(** Modelled from the spec: the fraction lies in [[1/3, 1]]. *)
Definition in_range (fr : Fraction) : bool :=
  (0 <? Denominator fr)
  && (Denominator fr <=? 3 * Numerator fr)
  && (Numerator fr <=? Denominator fr).

(** The value of a fraction with a positive denominator. *)
Definition value (fr : Fraction) : Q :=
  Qmake (Numerator fr) (Z.to_pos (Denominator fr)).

(** Modelled from the spec: [tmmath.NewFraction], which lives in
    [libs/math] of this repository and is not part of the file embedded
    here.  The spec has it validate the trust-level string and fail
    when the string does not parse or its value falls outside
    [[1/3, 1]]. *)
Definition NewFraction (f : string) : Fraction * option error :=
  let zero := {| Numerator := 0; Denominator := 0 |} in
  match parse f with
  | None => (zero, Some (foreign "incorrect formatting"))
  | Some fr =>
      if in_range fr then (fr, None)
      else (zero, Some (foreign "trust level out of range"))
  end.

(** The spec's reading of a trust-level string the run must refuse. *)
Definition invalid (f : string) : Prop :=
  parse f = None
  ∨ ∃ fr, parse f = Some fr
          ∧ ¬ (0 < Denominator fr ∧ (1 # 3 <= value fr)%Q ∧ (value fr <= 1)%Q).

End TrustLevel.

(** ** The command *)

(** The errors [runProxy] makes itself. *)
Definition ErrMissingPrimary : error :=
  errors_New
    ("no primary address was provided nor found. Please provide a primary (using -p)."
     +:+ " Run the command: tendermint light --help for more information").

Definition ErrRetrieve (cause : error) : error :=
  fmt_Errorf "failed to retrieve primary or witness from db. Error: %w" []
    cause.

Definition ErrTrustLevel (cause : error) : error :=
  fmt_Errorf "can't parse trust level: %w" [] cause.

Section Command.

Variable w : World.
Variable fl : Flags.

(** [cfg] after the assignments of [runProxy]: the three limits are
    overwritten, and the write timeout is raised when it does not
    already exceed the broadcast-commit timeout. *)
Definition serverConfig : Config :=
  let cfg := DefaultConfig w in
  let cfg := {| MaxOpenConnections := MaxOpenConnections cfg;
                ReadTimeout := ReadTimeout cfg;
                WriteTimeout := WriteTimeout cfg;
                MaxBodyBytes := RPC_MaxBodyBytes (config_RPC w);
                MaxHeaderBytes := MaxHeaderBytes cfg |} in
  let cfg := {| MaxOpenConnections := MaxOpenConnections cfg;
                ReadTimeout := ReadTimeout cfg;
                WriteTimeout := WriteTimeout cfg;
                MaxBodyBytes := MaxBodyBytes cfg;
                MaxHeaderBytes := RPC_MaxHeaderBytes (config_RPC w) |} in
  let cfg := {| MaxOpenConnections := maxOpenConnections fl;
                ReadTimeout := ReadTimeout cfg;
                WriteTimeout := WriteTimeout cfg;
                MaxBodyBytes := MaxBodyBytes cfg;
                MaxHeaderBytes := MaxHeaderBytes cfg |} in
  if WriteTimeout cfg <=? TimeoutBroadcastTxCommit (config_RPC w) then
    {| MaxOpenConnections := MaxOpenConnections cfg;
       ReadTimeout := ReadTimeout cfg;
       WriteTimeout :=
         add64 (TimeoutBroadcastTxCommit (config_RPC w)) (1 * Second);
       MaxBodyBytes := MaxBodyBytes cfg;
       MaxHeaderBytes := MaxHeaderBytes cfg |}
  else cfg.

(** The witness addresses [runProxy] derives from the [--witnesses]
    flag before it looks at the store. *)
Definition witnessesFromFlag : list string :=
  let witnessesAddrs := Split (witnessAddrsJoined fl) "," in
  if decide (witnessAddrsJoined fl = "") then [] else witnessesAddrs.

(** [runProxy(cmd, args)], with [arg0] for [args[0]]
    ([cobra.ExactArgs(1)] makes sure it is there).  The result is the
    returned [error], [None] for nil.  The branch on [primaryAddr] hands
    on the addresses in use and, when it returns early, the error in
    [ret]. *)
Definition runProxy (arg0 : string) : M (option error) :=
  emit (EvAllowLevel (if verbose fl then "debug" else "info"));;
  let chainID := arg0 in
  emit (EvInfo "Creating client..." "chainID" chainID);;
  let witnessesAddrs := witnessesFromFlag in
  err ← NewGoLevelDB w "light-client-db" (home fl);
  match err with
  | Some e => mret (Some (fmt_Errorf "can't create a db: %w" [] e))
  | None =>
  '(primaryAddr, witnessesAddrs, ret) ←
    (if decide (primaryAddr fl = "") then
       '(primaryAddr, witnessesAddrs, err) ← checkForExistingProviders w;
       match err with
       | Some e =>
           mret (primaryAddr, witnessesAddrs, Some (ErrRetrieve e))
       | None =>
           if decide (primaryAddr = "") then
             mret (primaryAddr, witnessesAddrs, Some ErrMissingPrimary)
           else mret (primaryAddr, witnessesAddrs, None)
       end
     else
       err ← saveProviders w (primaryAddr fl) (witnessAddrsJoined fl);
       match err with
       | Some e =>
           emit (EvError "Unable to save primary and or witness addresses"
                   (Some e))
       | None => mret tt
       end;;
       mret (primaryAddr fl, witnessesAddrs, None));
  match ret with
  | Some e => mret (Some e)
  | None =>
  let '(trustLevel, err) := TrustLevel.NewFraction (trustLevelStr fl) in
  match err with
  | Some e => mret (Some (ErrTrustLevel e))
  | None =>
  '(c, err) ←
    (if (0 <? trustedHeight fl) && (0 <? Z.of_nat (length (trustedHash fl)))
     then
       if sequential fl then
         light_New w
           (NewHTTPClient chainID
              {| Period := trustingPeriod fl;
                 Height := trustedHeight fl;
                 Hash := trustedHash fl |}
              primaryAddr witnessesAddrs chainID
              SequentialVerification)
       else
         light_New w
           (NewHTTPClient chainID
              {| Period := trustingPeriod fl;
                 Height := trustedHeight fl;
                 Hash := trustedHash fl |}
              primaryAddr witnessesAddrs chainID
              (SkippingVerification trustLevel))
     else
       if sequential fl then
         light_New w
           (NewHTTPClientFromTrustedStore chainID (trustingPeriod fl)
              primaryAddr witnessesAddrs chainID
              (SkippingVerification trustLevel))
       else
         light_New w
           (NewHTTPClientFromTrustedStore chainID (trustingPeriod fl)
              primaryAddr witnessesAddrs chainID
              SequentialVerification));
  match err with
  | Some e => mret (Some e)
  | None =>
  '(rpcClient, err) ← rpchttp_New w primaryAddr "/websocket";
  match err with
  | Some e =>
      mret (Some (fmt_Errorf "http client for %s: %w" [primaryAddr] e))
  | None =>
  let cfg := serverConfig in
  let p := {| Addr := listenAddr fl; Cfg := cfg;
              ProxyClient := (rpcClient, c) |} in
  emit EvTrapSignal;;
  emit (EvInfo "Starting proxy..." "laddr" (listenAddr fl));;
  err ← ListenAndServe w p;
  (if isnt_ErrServerClosed err
   then emit (EvError "proxy ListenAndServe" err)
   else mret tt);;
  mret None
  end end end end end.

End Command.

(** A run of the command from a given store content. *)
Definition run (w : World) (fl : Flags) (arg0 : string)
    (content : gmap string string) : option error * State :=
  runProxy w fl arg0 (initial content).

(** ** Reading a trace *)

(** The light clients constructed during a run, in order. *)
Fixpoint constructed (tr : list Event) : list Client :=
  match tr with
  | [] => []
  | EvLight c :: tr => c :: constructed tr
  | _ :: tr => constructed tr
  end.

(** The proxies handed to the server during a run. *)
Fixpoint served (tr : list Event) : list Proxy :=
  match tr with
  | [] => []
  | EvListenAndServe p :: tr => p :: served tr
  | _ :: tr => served tr
  end.

(** The events strictly before the first construction of a light
    client; the whole trace when none is constructed. *)
Fixpoint before_construction (tr : list Event) : list Event :=
  match tr with
  | [] => []
  | EvLight _ :: _ => []
  | e :: tr => e :: before_construction tr
  end.

(** The events that touch the network: constructing a light client or a
    transport client, and binding the listener. *)
Definition is_network (e : Event) : bool :=
  match e with
  | EvLight _ | EvRPCNew _ _ | EvListenAndServe _ => true
  | _ => false
  end.

(** The explicit-primary save went through: both entries were written
    without error and the store holds them. *)
Definition saved (fl : Flags) (pre : list Event)
    (store : gmap string string) : Prop :=
  EvSet "p" (primaryAddr fl) None ∈ pre
  ∧ EvSet "w" (witnessAddrsJoined fl) None ∈ pre
  ∧ store !! "p" = Some (primaryAddr fl)
  ∧ store !! "w" = Some (witnessAddrsJoined fl).

(** The failure of the explicit-primary save was logged. *)
Definition save_failure_logged (pre : list Event) : Prop :=
  ∃ e, EvError "Unable to save primary and or witness addresses" (Some e)
       ∈ pre.

(** The store can be opened and read, and the command ends up with a
    primary address: one given with [-p], or one found in the store. *)
Definition provider_resolved (w : World) (fl : Flags)
    (content : gmap string string) : bool :=
  match NewGoLevelDB_err w with
  | Some _ => false
  | None =>
      if decide (primaryAddr fl = "") then
        match db_fault w 0, db_fault w 1 with
        | None, None =>
            negb (bool_decide (string_of_bytes (content !! "p") = ""))
        | _, _ => false
        end
      else true
  end.

(** The run gets as far as constructing the light client. *)
Definition reaches_construction (w : World) (fl : Flags)
    (content : gmap string string) : bool :=
  provider_resolved w fl content
  && bool_decide ((TrustLevel.NewFraction (trustLevelStr fl)).2 = None).

(** The same world with another fault schedule for the store. *)
Definition with_faults (w : World) (faults : nat -> option error) : World :=
  {| NewGoLevelDB_err := NewGoLevelDB_err w;
     db_fault := faults;
     light_err := light_err w;
     rpchttp_New_err := rpchttp_New_err w;
     DefaultConfig := DefaultConfig w;
     config_RPC := config_RPC w;
     ListenAndServe_result := ListenAndServe_result w |}.

(** ** Sample worlds and invocations *)

Module Sample.

Definition cfg (writeTimeout : Z) : Config :=
  {| MaxOpenConnections := 0;
     ReadTimeout := 10 * Second;
     WriteTimeout := writeTimeout;
     MaxBodyBytes := 1000000;
     MaxHeaderBytes := 1048576 |}.

Definition rpc (timeoutBroadcastTxCommit : Z) : RPCConfig :=
  {| RPC_MaxBodyBytes := 1000000;
     RPC_MaxHeaderBytes := 1048576;
     TimeoutBroadcastTxCommit := timeoutBroadcastTxCommit |}.

(** Nothing fails; the server runs until it is shut down. *)
Definition calm : World :=
  {| NewGoLevelDB_err := None;
     db_fault := fun _ => None;
     light_err := fun _ => None;
     rpchttp_New_err := fun _ _ => None;
     DefaultConfig := cfg (10 * Second);
     config_RPC := rpc (10 * Second);
     ListenAndServe_result := fun _ => Some http_ErrServerClosed |}.

(** The listen address cannot be bound. *)
Definition addr_in_use : error :=
  foreign "listen tcp 127.0.0.1:8888: bind: address already in use".

Definition busy_port : World :=
  {| NewGoLevelDB_err := None;
     db_fault := fun _ => None;
     light_err := fun _ => None;
     rpchttp_New_err := fun _ _ => None;
     DefaultConfig := cfg (10 * Second);
     config_RPC := rpc (10 * Second);
     ListenAndServe_result := fun _ => Some addr_in_use |}.


(** Every operation on the store fails. *)
Definition disk_error : error := foreign "leveldb: i/o error".

Definition broken_store : World :=
  with_faults calm (fun _ => Some disk_error).

(** [light chain-A -p http://A] *)
Definition explicit_primary : Flags :=
  {| listenAddr := listenAddr defaultFlags;
     primaryAddr := "http://A";
     witnessAddrsJoined := "";
     home := home defaultFlags;
     maxOpenConnections := maxOpenConnections defaultFlags;
     sequential := false;
     trustingPeriod := trustingPeriod defaultFlags;
     trustedHeight := trustedHeight defaultFlags;
     trustedHash := trustedHash defaultFlags;
     trustLevelStr := trustLevelStr defaultFlags;
     verbose := verbose defaultFlags |}.

(** [light chain-A -p http://A --sequential] *)
Definition explicit_primary_sequential : Flags :=
  {| listenAddr := listenAddr defaultFlags;
     primaryAddr := "http://A";
     witnessAddrsJoined := "";
     home := home defaultFlags;
     maxOpenConnections := maxOpenConnections defaultFlags;
     sequential := true;
     trustingPeriod := trustingPeriod defaultFlags;
     trustedHeight := trustedHeight defaultFlags;
     trustedHash := trustedHash defaultFlags;
     trustLevelStr := trustLevelStr defaultFlags;
     verbose := verbose defaultFlags |}.

(** [light chain-A -p http://A --height 100 --hash DEAD] *)
Definition fresh_root : Flags :=
  {| listenAddr := listenAddr defaultFlags;
     primaryAddr := "http://A";
     witnessAddrsJoined := "";
     home := home defaultFlags;
     maxOpenConnections := maxOpenConnections defaultFlags;
     sequential := false;
     trustingPeriod := trustingPeriod defaultFlags;
     trustedHeight := 100;
     trustedHash := [Byte.xde; Byte.xad];
     trustLevelStr := trustLevelStr defaultFlags;
     verbose := verbose defaultFlags |}.

(** [light chain-A --trust-level abc] *)
Definition bad_trust_level : Flags :=
  {| listenAddr := listenAddr defaultFlags;
     primaryAddr := "http://A";
     witnessAddrsJoined := "";
     home := home defaultFlags;
     maxOpenConnections := maxOpenConnections defaultFlags;
     sequential := false;
     trustingPeriod := trustingPeriod defaultFlags;
     trustedHeight := trustedHeight defaultFlags;
     trustedHash := trustedHash defaultFlags;
     trustLevelStr := "abc";
     verbose := verbose defaultFlags |}.

(** A store written by an earlier run with [-p http://B -w http://C,http://D]. *)
Definition stored_BCD : gmap string string :=
  <["w" := "http://C,http://D"]> (<["p" := "http://B"]> ∅).

(** A store that holds a primary and no witnesses entry. *)
Definition stored_B : gmap string string := <["p" := "http://B"]> ∅.

End Sample.

(** ** More readings of a run *)

(** The number of times a character occurs in a string. *)
Fixpoint occurrences (c : Ascii.ascii) (s : string) : nat :=
  match s with
  | EmptyString => 0%nat
  | String c' rest =>
      if Ascii.eqb c' c then S (occurrences c rest) else occurrences c rest
  end.

(** The chain identifier a client was constructed for, and the one that
    name-spaces its store. *)
Definition client_chainID (c : Client) : string :=
  match c with
  | NewHTTPClient chainID _ _ _ _ _ => chainID
  | NewHTTPClientFromTrustedStore chainID _ _ _ _ _ => chainID
  end.

Definition client_store (c : Client) : string :=
  match c with
  | NewHTTPClient _ _ _ _ store _ => store
  | NewHTTPClientFromTrustedStore _ _ _ _ store _ => store
  end.

(** The trusted root a client was constructed from, if it was. *)
Definition client_trustOptions (c : Client) : option TrustOptions :=
  match c with
  | NewHTTPClient _ opts _ _ _ _ => Some opts
  | NewHTTPClientFromTrustedStore _ _ _ _ _ _ => None
  end.

(** The trusting period handed to either constructor. *)
Definition client_period (c : Client) : Z :=
  match c with
  | NewHTTPClient _ opts _ _ _ _ => Period opts
  | NewHTTPClientFromTrustedStore _ period _ _ _ _ => period
  end.

(** Reads of the store, writes to it, and transport clients, as events. *)
Definition is_Get (e : Event) : bool :=
  match e with EvGet _ _ => true | _ => false end.

Definition is_Set (e : Event) : bool :=
  match e with EvSet _ _ _ => true | _ => false end.

Definition is_RPCNew (e : Event) : bool :=
  match e with EvRPCNew _ _ => true | _ => false end.

(** The operations on the store among the events of a run. *)
Fixpoint store_ops (tr : list Event) : list Event :=
  match tr with
  | [] => []
  | e :: tr => if is_Get e || is_Set e then e :: store_ops tr else store_ops tr
  end.

(** A write of one of the two provider entries, with the value of the
    command line; every event that is not a write passes. *)
Definition writes_provider_entry (fl : Flags) (e : Event) : Prop :=
  match e with
  | EvSet k v _ =>
      (k = "p" ∧ v = primaryAddr fl) ∨ (k = "w" ∧ v = witnessAddrsJoined fl)
  | _ => True
  end.


(** Further worlds and invocations. *)
Module Scenario.

(** The store cannot be opened. *)
Definition locked : error := foreign "resource temporarily unavailable".

Definition no_store : World :=
  {| NewGoLevelDB_err := Some locked;
     db_fault := db_fault Sample.calm;
     light_err := light_err Sample.calm;
     rpchttp_New_err := rpchttp_New_err Sample.calm;
     DefaultConfig := DefaultConfig Sample.calm;
     config_RPC := config_RPC Sample.calm;
     ListenAndServe_result := ListenAndServe_result Sample.calm |}.

(** Only the [n]-th operation on the store fails. *)
Definition fault_at (n : nat) : World :=
  with_faults Sample.calm
    (fun k => if Nat.eqb k n then Some Sample.disk_error else None).

(** The light client cannot be constructed. *)
Definition no_trusted_header : error := foreign "no trusted header found".

Definition light_fails : World :=
  {| NewGoLevelDB_err := None;
     db_fault := db_fault Sample.calm;
     light_err := fun _ => Some no_trusted_header;
     rpchttp_New_err := rpchttp_New_err Sample.calm;
     DefaultConfig := DefaultConfig Sample.calm;
     config_RPC := config_RPC Sample.calm;
     ListenAndServe_result := ListenAndServe_result Sample.calm |}.

(** The transport client cannot be constructed. *)
Definition bad_remote : error := foreign "invalid remote address".

Definition rpc_fails : World :=
  {| NewGoLevelDB_err := None;
     db_fault := db_fault Sample.calm;
     light_err := light_err Sample.calm;
     rpchttp_New_err := fun _ _ => Some bad_remote;
     DefaultConfig := DefaultConfig Sample.calm;
     config_RPC := config_RPC Sample.calm;
     ListenAndServe_result := ListenAndServe_result Sample.calm |}.

(** [light chain-A -p http://B -w http://C,http://D] *)
Definition with_witnesses : Flags :=
  {| listenAddr := listenAddr defaultFlags;
     primaryAddr := "http://B";
     witnessAddrsJoined := "http://C,http://D";
     home := home defaultFlags;
     maxOpenConnections := maxOpenConnections defaultFlags;
     sequential := false;
     trustingPeriod := trustingPeriod defaultFlags;
     trustedHeight := trustedHeight defaultFlags;
     trustedHash := trustedHash defaultFlags;
     trustLevelStr := trustLevelStr defaultFlags;
     verbose := verbose defaultFlags |}.

(** The client [light chain-A -p http://A] constructs, and the proxy it
    serves in a calm world. *)
Definition client_A : Client :=
  NewHTTPClientFromTrustedStore "chain-A" (trustingPeriod defaultFlags)
    "http://A" [] "chain-A" SequentialVerification.

Definition proxy_A : Proxy :=
  {| Addr := "tcp://localhost:8888";
     Cfg := serverConfig Sample.calm Sample.explicit_primary;
     ProxyClient := ("http://A", client_A) |}.

End Scenario.

(** ** Proof tools *)

(** Unfolds a run down to the answers of the collaborators; the log
    level, which steers nothing, is abstracted. *)
Ltac unfold_run :=
  unfold run, runProxy, checkForExistingProviders, saveProviders,
    NewGoLevelDB, Get, Set_, light_New, rpchttp_New, ListenAndServe, emit,
    initial, mbind, M_bind, mret, M_ret;
  cbn [db ops trace fst snd app];
  try match goal with
      | |- context [EvAllowLevel ?lvl] =>
          let l := fresh "lvl" in generalize lvl; intros l
      end.

(** Case analysis on every answer that steers the run. *)
Ltac tidy :=
  cbn [db ops trace fst snd app constructed served before_construction
       is_network is_fresh client_mode client_witnesses] in *.

Ltac steer :=
  tidy;
  repeat (first [ progress simplify_eq | case_decide | case_match ]; tidy).

(** Membership in a list that the case analysis has made explicit. *)
Ltac members :=
  repeat match goal with
    | H : _ ∈ [] |- _ => by apply elem_of_nil in H
    | H : _ ∈ [_] |- _ => apply list_elem_of_singleton in H; subst
    end.

(** An event that is written out in an explicit list. *)
Ltac found :=
  repeat first [ apply list_elem_of_here | apply list_elem_of_further ].

(** ** Go values: facts *)

Lemma wrap64_id z : int64_range z → wrap64 z = z.
Proof.
  unfold int64_range, MinInt64, MaxInt64, wrap64. intros [Hlo Hhi].
  rewrite Z.mod_small; lia.
Qed.

Lemma Split_nonempty s sep : Split s sep ≠ [].
Proof.
  destruct s as [|c rest]; cbn; [done|].
  destruct (Ascii.eqb c sep); [done|]. by destruct (Split rest sep).
Qed.

Example Split_two :
  Split "http://C,http://D" "," = ["http://C"; "http://D"].
Proof. reflexivity. Qed.

Example Split_empty : Split "" "," = [""].
Proof. reflexivity. Qed.

Example Split_trailing : Split "a,,b," "," = ["a"; ""; "b"; ""].
Proof. reflexivity. Qed.

(** Joining the pieces with the separator gives the string back. *)
Lemma Join_Split s sep : Join (Split s sep) sep = s.
Proof.
  induction s as [|c rest IH]; cbn [Split]; [done|].
  pose proof (Split_nonempty rest sep) as Hnil.
  destruct (Ascii.eqb_spec c sep) as [->|Hne];
    destruct (Split rest sep) as [|piece pieces]; try done.
  - change (Join ("" :: piece :: pieces) sep)
      with (String sep (Join (piece :: pieces) sep)).
    by rewrite IH.
  - rewrite <- IH. by destruct pieces.
Qed.

Lemma hash_nonempty (h : list Byte.byte) :
  (0 <? Z.of_nat (length h)) = true ↔ h ≠ [].
Proof.
  rewrite Z.ltb_lt. destruct h; cbn [length]; split; intros; try done; lia.
Qed.

(** ** The bootstrap decision *)

Section Decision.

Variable w : World.
Variable fl : Flags.
Variable arg0 : string.
Variable content : gmap string string.

Let result := run w fl arg0 content.

(** A run constructs at most one light client. *)
Lemma constructed_at_most_one :
  (length (constructed (trace result.2)) <= 1)%nat.
Proof. subst result. unfold_run. steer; cbn; lia. Qed.

(** Nothing is constructed unless the providers are resolved and the
    trust level is accepted. *)
Lemma constructed_only_if_reached :
  reaches_construction w fl content = false →
  constructed (trace result.2) = [].
Proof.
  subst result. unfold reaches_construction, provider_resolved.
  intros Hreach. unfold_run. steer; try done.
  all: cbn in Hreach; try done.
  all: rewrite ?bool_decide_eq_false in Hreach; try done.
  all: by rewrite bool_decide_eq_true_2 in Hreach.
Qed.

(** On the fresh path the strategy is the one the flag names. *)
Lemma fresh_mode_follows_flag c :
  c ∈ constructed (trace result.2) →
  is_fresh c = true →
  is_sequential (client_mode c) = sequential fl.
Proof.
  subst result. unfold_run. intros Hc Hfresh.
  steer; members; by cbn in *.
Qed.

(** On the resume path the strategy is the other one. *)
Lemma resume_mode_opposes_flag c :
  c ∈ constructed (trace result.2) →
  is_fresh c = false →
  is_sequential (client_mode c) = negb (sequential fl).
Proof.
  subst result. unfold_run. intros Hc Hfresh.
  steer; members; cbn in *; try done.
  all: by match goal with H : sequential fl = _ |- _ => rewrite H end.
Qed.

End Decision.

(** C2. The bootstrap mode is decided by the conjunction of a positive
    trusted height and a non-empty trusted hash, and by nothing else:
    whatever the store holds, a run that gets as far as constructing the
    light client constructs exactly one, through the fresh-root
    constructor when both conditions hold and through the
    from-trusted-store constructor in every other case. *)
Theorem bootstrap_mode_by_height_and_hash
    (w : World) (fl : Flags) (arg0 : string) (content : gmap string string) :
  reaches_construction w fl content = true →
  ∃ c, constructed (trace (run w fl arg0 content).2) = [c]
       ∧ (is_fresh c = true ↔ 0 < trustedHeight fl ∧ trustedHash fl ≠ []).
Proof.
  unfold reaches_construction, provider_resolved. intros Hreach.
  apply andb_true_iff in Hreach as [Hprov Htl].
  apply bool_decide_eq_true in Htl.
  unfold_run. steer.
  all: eexists; split; [reflexivity|]; cbn [is_fresh].
  all: match goal with
       | H : _ && _ = true |- _ =>
           apply andb_true_iff in H as [Hh%Z.ltb_lt Hl%hash_nonempty]
       | H : _ && _ = false |- _ =>
           apply andb_false_iff in H as [Hh%Z.ltb_ge | Hl]
       end.
  all: try (split; [done | tauto]).
  all: try (split; [done | intros [? ?]; lia]).
  all: split; [done | intros [? Hne%hash_nonempty]; congruence].
Qed.

Lemma bootstrap_mode_by_height_and_hash_witness :
  ∃ c, constructed
         (trace (run Sample.calm Sample.fresh_root "chain-A"
                   Sample.stored_BCD).2) = [c]
       ∧ (is_fresh c = true
          ↔ 0 < trustedHeight Sample.fresh_root
            ∧ trustedHash Sample.fresh_root ≠ []).
Proof.
  apply (bootstrap_mode_by_height_and_hash Sample.calm Sample.fresh_root
           "chain-A" Sample.stored_BCD).
  vm_compute. reflexivity.
Defined.

(** The default height is 1 and the default hash is empty: without
    [--hash] the command resumes. *)
Example default_flags_resume :
  is_fresh <$> constructed
    (trace (run Sample.calm Sample.explicit_primary "chain-A" ∅).2)
  = [false].
Proof. vm_compute. reflexivity. Qed.

(** C1. With [--sequential] and no trusted hash the command takes the
    resume path and constructs its client with skipping verification:
    on that path the flag selects the opposite of what it names. *)
Theorem resume_sequential_constructs_skipping :
  sequential Sample.explicit_primary_sequential = true
  ∧ constructed
      (trace (run Sample.calm Sample.explicit_primary_sequential "chain-A"
                ∅).2)
    = [NewHTTPClientFromTrustedStore "chain-A"
         (trustingPeriod defaultFlags) "http://A" [] "chain-A"
         (SkippingVerification {| Numerator := 1; Denominator := 3 |})].
Proof. split; vm_compute; reflexivity. Qed.

(** Without [--sequential] the resume path verifies sequentially. *)
Example resume_skipping_constructs_sequential :
  client_mode <$> constructed
    (trace (run Sample.calm Sample.explicit_primary "chain-A" ∅).2)
  = [SequentialVerification].
Proof. vm_compute. reflexivity. Qed.

(** ** Failing early *)

(** C3. With no primary address on the command line and no primary entry
    in the store, the run fails without constructing a light client or a
    transport client and without binding the listener; when the store can
    be opened and read, the failure is the missing-primary error. *)
Theorem missing_primary_fails_early
    (w : World) (fl : Flags) (arg0 : string) (content : gmap string string) :
  primaryAddr fl = "" →
  content !! "p" = None →
  let r := run w fl arg0 content in
  is_Some r.1
  ∧ Forall (λ e, is_network e = false) (trace r.2)
  ∧ (NewGoLevelDB_err w = None → db_fault w 0 = None → db_fault w 1 = None →
     r.1 = Some ErrMissingPrimary).
Proof.
  intros Hflag Hstore. cbv zeta. unfold_run.
  destruct (NewGoLevelDB_err w) as [e|]; tidy.
  { split; [|split]; [by eexists | by repeat constructor | done]. }
  rewrite decide_True by done. tidy.
  destruct (db_fault w 0) as [e0|]; tidy.
  { split; [|split]; [by eexists | by repeat constructor | done]. }
  destruct (db_fault w 1) as [e1|]; tidy.
  { split; [|split]; [by eexists | by repeat constructor | done]. }
  rewrite Hstore. cbn [string_of_bytes default].
  rewrite decide_True by done. tidy.
  split; [|split]; [by eexists | by repeat constructor | done].
Qed.

Lemma missing_primary_fails_early_witness :
  let r := run Sample.calm defaultFlags "chain-A" ∅ in
  is_Some r.1
  ∧ Forall (λ e, is_network e = false) (trace r.2)
  ∧ (NewGoLevelDB_err Sample.calm = None →
     db_fault Sample.calm 0 = None → db_fault Sample.calm 1 = None →
     r.1 = Some ErrMissingPrimary).
Proof.
  apply (missing_primary_fails_early Sample.calm defaultFlags "chain-A" ∅).
  - reflexivity.
  - reflexivity.
Defined.

(** The same run, evaluated. *)
Example missing_primary_run :
  let r := run Sample.calm defaultFlags "chain-A" ∅ in
  r.1 = Some ErrMissingPrimary
  ∧ trace r.2 = [EvAllowLevel "info";
                 EvInfo "Creating client..." "chainID" "chain-A";
                 EvNewGoLevelDB "light-client-db" ".tendermint-light";
                 EvGet "p" None; EvGet "w" None].
Proof. split; vm_compute; reflexivity. Qed.

(** When the store cannot be read the run fails as early, with the
    retrieval error. *)
Example unreadable_store_run :
  (run Sample.broken_store defaultFlags "chain-A" ∅).1
  = Some (ErrRetrieve Sample.disk_error).
Proof. vm_compute. reflexivity. Qed.

(** *** The trust level *)

Module TrustLevelFacts.

Import TrustLevel.

(** [in_range] is membership of the value in [[1/3, 1]]. *)
Lemma in_range_spec fr :
  in_range fr = true
  ↔ 0 < Denominator fr ∧ (1 # 3 <= value fr)%Q ∧ (value fr <= 1)%Q.
Proof.
  unfold in_range, value, Qle. cbn [Qnum Qden].
  rewrite !andb_true_iff, Z.ltb_lt, !Z.leb_le.
  split.
  - intros [[Hd Hlo] Hhi]. rewrite Z2Pos.id by done. lia.
  - intros (Hd & Hlo & Hhi). rewrite Z2Pos.id in * by done. lia.
Qed.

(** [NewFraction] accepts exactly the strings that are not [invalid]. *)
Lemma NewFraction_invalid f :
  invalid f → is_Some (NewFraction f).2.
Proof.
  unfold invalid, NewFraction. intros [-> | (fr & -> & Hout)].
  - by eexists.
  - destruct (in_range fr) eqn:E; [|by eexists].
    by apply in_range_spec in E.
Qed.

Lemma NewFraction_valid f fr :
  NewFraction f = (fr, None) →
  parse f = Some fr
  ∧ 0 < Denominator fr ∧ (1 # 3 <= value fr)%Q ∧ (value fr <= 1)%Q.
Proof.
  unfold NewFraction. destruct (parse f) as [fr'|]; [|done].
  destruct (in_range fr') eqn:E; [|done].
  intros [= ->]. split; [done|]. by apply in_range_spec.
Qed.

Example one_third : NewFraction "1/3"
                    = ({| Numerator := 1; Denominator := 3 |}, None).
Proof. reflexivity. Qed.

Example one : NewFraction "3/3"
              = ({| Numerator := 3; Denominator := 3 |}, None).
Proof. reflexivity. Qed.

Example one_quarter : is_Some (NewFraction "1/4").2.
Proof. by eexists. Qed.

Example four_thirds : is_Some (NewFraction "4/3").2.
Proof. by eexists. Qed.

Example no_denominator : is_Some (NewFraction "1").2.
Proof. by eexists. Qed.

Example zero_denominator : is_Some (NewFraction "1/0").2.
Proof. by eexists. Qed.

Example abc_invalid : invalid "abc".
Proof. by left. Qed.

Example one_quarter_invalid : invalid "1/4".
Proof.
  right. eexists. split; [reflexivity|]. cbn.
  intros (_ & Hlo & _). by apply Hlo.
Qed.

End TrustLevelFacts.

(** C5. A trust-level string that does not parse as a fraction, or whose
    value lies outside [[1/3, 1]], makes the run fail without any network
    I/O: no light client, no transport client, no listener.  The failure
    is the trust-level error in every run that gets past opening the
    store and resolving the primary. *)
Theorem invalid_trust_level_fails_before_network
    (w : World) (fl : Flags) (arg0 : string) (content : gmap string string) :
  TrustLevel.invalid (trustLevelStr fl) →
  let r := run w fl arg0 content in
  is_Some r.1
  ∧ Forall (λ e, is_network e = false) (trace r.2)
  ∧ (provider_resolved w fl content = true →
     ∃ cause, r.1 = Some (ErrTrustLevel cause)).
Proof.
  intros [cause Hcause]%TrustLevelFacts.NewFraction_invalid.
  unfold provider_resolved. cbv zeta. unfold_run.
  destruct (TrustLevel.NewFraction (trustLevelStr fl)) as [tl err].
  cbn [snd] in Hcause. subst err.
  destruct (NewGoLevelDB_err w) as [e|]; tidy.
  { split; [|split]; [by eexists | by repeat constructor | done]. }
  destruct (decide (primaryAddr fl = "")) as [Hflag|Hflag]; tidy.
  - destruct (db_fault w 0) as [e0|]; tidy.
    { split; [|split]; [by eexists | by repeat constructor | done]. }
    destruct (db_fault w 1) as [e1|]; tidy.
    { split; [|split]; [by eexists | by repeat constructor | done]. }
    case_decide; tidy.
    + split; [|split]; [by eexists | by repeat constructor |].
      by rewrite bool_decide_eq_true_2.
    + split; [|split]; [by eexists | by repeat constructor | by eexists].
  - destruct (db_fault w 0) as [e0|]; tidy.
    { split; [|split]; [by eexists | by repeat constructor | by eexists]. }
    destruct (db_fault w 1) as [e1|]; tidy.
    all: split; [|split]; [by eexists | by repeat constructor | by eexists].
Qed.

Lemma invalid_trust_level_fails_before_network_witness :
  let r := run Sample.calm Sample.bad_trust_level "chain-A" ∅ in
  is_Some r.1
  ∧ Forall (λ e, is_network e = false) (trace r.2)
  ∧ (provider_resolved Sample.calm Sample.bad_trust_level ∅ = true →
     ∃ cause, r.1 = Some (ErrTrustLevel cause)).
Proof.
  apply (invalid_trust_level_fails_before_network Sample.calm
           Sample.bad_trust_level "chain-A" ∅).
  left. reflexivity.
Defined.

(** The same run, evaluated: the providers are saved, then the run
    stops. *)
Example bad_trust_level_run :
  let r := run Sample.calm Sample.bad_trust_level "chain-A" ∅ in
  r.1 = Some (ErrTrustLevel (foreign "incorrect formatting"))
  ∧ trace r.2 = [EvAllowLevel "info";
                 EvInfo "Creating client..." "chainID" "chain-A";
                 EvNewGoLevelDB "light-client-db" ".tendermint-light";
                 EvSet "p" "http://A" None; EvSet "w" "" None].
Proof. split; vm_compute; reflexivity. Qed.

(** ** The provider record *)

Section Providers.

Variable w : World.

(** What loading returns from a store that can be read. *)
Lemma checkForExistingProviders_readable s :
  db_fault w (ops s) = None →
  db_fault w (S (ops s)) = None →
  (checkForExistingProviders w s).1
  = (string_of_bytes (db s !! "p"),
     Split (string_of_bytes (db s !! "w")) ",", None).
Proof.
  intros H0 H1. unfold checkForExistingProviders, Get, mbind, M_bind, mret,
    M_ret. cbn [db ops trace fst snd]. rewrite H0.
  cbn [db ops trace fst snd]. by rewrite H1.
Qed.

(** What a successful save leaves in the store. *)
Lemma saveProviders_stored p ws s :
  (saveProviders w p ws s).1 = None →
  db (saveProviders w p ws s).2 = <["w" := ws]> (<["p" := p]> (db s))
  ∧ ops (saveProviders w p ws s).2 = S (S (ops s)).
Proof.
  unfold saveProviders, Set_, mbind, M_bind, mret, M_ret.
  cbn [db ops trace fst snd].
  destruct (db_fault w (ops s)); cbn [db ops trace fst snd]; [done|].
  by destruct (db_fault w (S (ops s))).
Qed.

(** Saving and then loading, with the store working: the primary comes
    back, and the witnesses come back as the pieces of the saved
    string. *)
Lemma save_then_load p ws s :
  let s1 := (saveProviders w p ws s).2 in
  (saveProviders w p ws s).1 = None →
  db_fault w (ops s1) = None →
  db_fault w (S (ops s1)) = None →
  (checkForExistingProviders w s1).1 = (p, Split ws ",", None).
Proof.
  intros s1 Hsave H0 H1. subst s1.
  rewrite checkForExistingProviders_readable by done.
  destruct (saveProviders_stored p ws s Hsave) as [-> _].
  by simplify_map_eq.
Qed.

End Providers.

(** For a non-empty witness string the sequence loaded after a save is
    the sequence the command derived from the flag. *)
Lemma save_then_load_nonempty (w : World) (fl : Flags) (s : State) :
  let s1 := (saveProviders w (primaryAddr fl) (witnessAddrsJoined fl) s).2 in
  witnessAddrsJoined fl ≠ "" →
  (saveProviders w (primaryAddr fl) (witnessAddrsJoined fl) s).1 = None →
  db_fault w (ops s1) = None →
  db_fault w (S (ops s1)) = None →
  (checkForExistingProviders w s1).1
  = (primaryAddr fl, witnessesFromFlag fl, None).
Proof.
  intros s1 Hne Hsave H0 H1. subst s1.
  rewrite save_then_load by done.
  unfold witnessesFromFlag. by rewrite decide_False.
Qed.

(** C4. Saving the primary [http://A] with no witnesses and loading
    again does not give the witness sequence back: the command used the
    empty sequence, and the load returns a sequence of one empty
    address.  A first run with [-p http://A] and a second run without
    [-p] on the store the first one left show it end to end. *)
Theorem saved_empty_witnesses_load_as_one_empty_address :
  let fl := Sample.explicit_primary in
  let first := run Sample.calm fl "chain-A" ∅ in
  let second := run Sample.calm defaultFlags "chain-A" (db first.2) in
  witnessesFromFlag fl = []
  ∧ (checkForExistingProviders Sample.calm
       (saveProviders Sample.calm (primaryAddr fl) (witnessAddrsJoined fl)
          (initial ∅)).2).1
    = ("http://A", [""], None)
  ∧ client_witnesses <$> constructed (trace first.2) = [[]]
  ∧ client_witnesses <$> constructed (trace second.2) = [[""]].
Proof. repeat split; vm_compute; reflexivity. Qed.

(** The scenario of the spec with two witnesses does round-trip. *)
Example stored_BCD_loads :
  (checkForExistingProviders Sample.calm (initial Sample.stored_BCD)).1
  = ("http://B", ["http://C"; "http://D"], None).
Proof. vm_compute. reflexivity. Qed.

(** C9. Saving the same primary and the same witness string a second
    time leaves the store as the first save left it, whether or not the
    second save succeeds. *)
Theorem saveProviders_twice
    (w : World) (p ws : string) (s : State) :
  let s1 := (saveProviders w p ws s).2 in
  (saveProviders w p ws s).1 = None →
  db (saveProviders w p ws s1).2 = db s1.
Proof.
  intros s1 Hsave. subst s1.
  destruct (saveProviders_stored w p ws s Hsave) as [Hdb Hops].
  set (s1 := (saveProviders w p ws s).2) in *.
  unfold saveProviders at 1. unfold Set_, mbind, M_bind, mret, M_ret.
  cbn [db ops trace fst snd].
  destruct (db_fault w (ops s1)); cbn [db ops trace fst snd]; [done|].
  assert (<["p" := p]> (db s1) = db s1) as Hp.
  { apply insert_id. rewrite Hdb. by simplify_map_eq. }
  destruct (db_fault w (S (ops s1))); cbn [db ops trace fst snd];
    rewrite Hp; [done|].
  apply insert_id. rewrite Hdb. by simplify_map_eq.
Qed.

Lemma saveProviders_twice_witness :
  let s1 := (saveProviders Sample.calm "http://B" "http://C,http://D"
               (initial ∅)).2 in
  db (saveProviders Sample.calm "http://B" "http://C,http://D" s1).2 = db s1.
Proof.
  apply (saveProviders_twice Sample.calm "http://B" "http://C,http://D"
           (initial ∅)).
  reflexivity.
Defined.

(** A first save that fails half-way is completed by the second. *)
Example saveProviders_after_partial_write :
  let w := with_faults Sample.calm
             (λ n, if decide (n = 1%nat) then Some Sample.disk_error
                   else None) in
  let s1 := (saveProviders w "http://B" "http://C" (initial ∅)).2 in
  let s2 := (saveProviders w "http://B" "http://C" s1).2 in
  (db s1 !! "w", db s2 !! "w") = (None, Some "http://C").
Proof. vm_compute. reflexivity. Qed.

(** C10. When the store has no witnesses entry, or an empty one, loading
    returns the sequence of one empty address; an empty [--witnesses]
    flag gives the empty sequence. *)
Theorem empty_witnesses_load_vs_flag
    (w : World) (fl : Flags) (s : State) :
  db_fault w (ops s) = None →
  db_fault w (S (ops s)) = None →
  db s !! "w" = None ∨ db s !! "w" = Some "" →
  witnessAddrsJoined fl = "" →
  (checkForExistingProviders w s).1
  = (string_of_bytes (db s !! "p"), [""], None)
  ∧ witnessesFromFlag fl = [].
Proof.
  intros H0 H1 Hw Hflag. split.
  - rewrite checkForExistingProviders_readable by done.
    by destruct Hw as [-> | ->].
  - unfold witnessesFromFlag. by rewrite decide_True.
Qed.

Lemma empty_witnesses_load_vs_flag_witness :
  (checkForExistingProviders Sample.calm (initial Sample.stored_B)).1
  = (string_of_bytes (db (initial Sample.stored_B) !! "p"), [""], None)
  ∧ witnessesFromFlag defaultFlags = [].
Proof.
  apply (empty_witnesses_load_vs_flag Sample.calm defaultFlags
           (initial Sample.stored_B)).
  - reflexivity.
  - reflexivity.
  - left. reflexivity.
  - reflexivity.
Defined.

(** ** Saving before constructing *)

(** With an explicit primary the returned error does not depend on how
    the store behaves once it is open. *)
Lemma explicit_primary_result_without_faults
    (w : World) (fl : Flags) (arg0 : string) (content : gmap string string) :
  primaryAddr fl ≠ "" →
  (run w fl arg0 content).1
  = (run (with_faults w (λ _, None)) fl arg0 content).1.
Proof.
  intros Hflag.
  change (serverConfig (with_faults w (λ _, None)) fl)
    with (serverConfig w fl).
  unfold_run.
  change (serverConfig (with_faults w (λ _, None)) fl)
    with (serverConfig w fl).
  cbn [with_faults db_fault NewGoLevelDB_err light_err rpchttp_New_err
       ListenAndServe_result].
  destruct (NewGoLevelDB_err w); tidy; [done|].
  repeat (case_decide; [done|]). tidy.
  destruct (db_fault w 0); tidy; [|destruct (db_fault w 1); tidy].
  all: destruct (TrustLevel.NewFraction (trustLevelStr fl)) as [tl [?|]];
    tidy; [done|].
  all: destruct ((0 <? trustedHeight fl)
                 && (0 <? Z.of_nat (length (trustedHash fl))));
    destruct (sequential fl); tidy.
  all: match goal with
       | |- context [light_err _ ?c] => destruct (light_err w c)
       end; tidy; [done|].
  all: destruct (rpchttp_New_err w (primaryAddr fl) "/websocket");
    tidy; [done|].
  all: match goal with
       | |- context [isnt_ErrServerClosed ?r] =>
           destruct (isnt_ErrServerClosed r)
       end; by tidy.
Qed.

(** C8. With an explicit primary the save comes before the light client:
    whenever a client is constructed, the events before the construction
    hold either both successful writes, with the store holding both
    entries, or the logged failure of the save.  On a store that opens
    and takes both writes the providers are persisted; on one that opens
    and refuses a write the failure is logged; in both cases a client is
    still constructed when the trust level is accepted, and the error the
    run returns is the same under every fault schedule of the store: a
    failed save never makes the run fail. *)
Theorem providers_saved_before_construction
    (w : World) (fl : Flags) (arg0 : string) (content : gmap string string) :
  primaryAddr fl ≠ "" →
  let r := run w fl arg0 content in
  let pre := before_construction (trace r.2) in
  (constructed (trace r.2) ≠ [] →
   saved fl pre (db r.2) ∨ save_failure_logged pre)
  ∧ (NewGoLevelDB_err w = None →
     (db_fault w 0 = None → db_fault w 1 = None → saved fl pre (db r.2))
     ∧ (¬ (db_fault w 0 = None ∧ db_fault w 1 = None) →
        save_failure_logged pre)
     ∧ ((TrustLevel.NewFraction (trustLevelStr fl)).2 = None →
        ∃ c, constructed (trace r.2) = [c]))
  ∧ (∀ faults, (run (with_faults w faults) fl arg0 content).1 = r.1).
Proof.
  intros Hflag r pre. subst r pre. split_and!.
  - unfold saved, save_failure_logged. unfold_run.
    destruct (NewGoLevelDB_err w); tidy; [done|].
    repeat (case_decide; [done|]). tidy.
    destruct (db_fault w 0); tidy; [|destruct (db_fault w 1); tidy].
    all: destruct (TrustLevel.NewFraction (trustLevelStr fl)) as [tl [?|]];
      tidy; [done|].
    all: intros _.
    all: destruct ((0 <? trustedHeight fl)
                   && (0 <? Z.of_nat (length (trustedHash fl))));
      destruct (sequential fl); tidy.
    all: match goal with
         | |- context [light_err _ ?c] => destruct (light_err w c)
         end; tidy.
    all: try destruct (rpchttp_New_err w (primaryAddr fl) "/websocket");
      tidy.
    all: try match goal with
         | |- context [isnt_ErrServerClosed ?r] =>
             destruct (isnt_ErrServerClosed r)
         end; tidy.
    all: first
           [ left; split_and!; [found | found | | ]; by simplify_map_eq
           | right; eexists; found ].
  - intros Hopen. split_and!.
    + intros H0 H1. unfold saved. unfold_run. rewrite Hopen. tidy.
      rewrite decide_False by done.
      repeat first [ rewrite H0 | rewrite H1 | progress tidy ].
      steer.
      all: split_and!; [found | found | | ]; by simplify_map_eq.
    + intros Hfault. unfold save_failure_logged. unfold_run.
      rewrite Hopen. tidy. rewrite decide_False by done. tidy.
      destruct (db_fault w 0); tidy; [|destruct (db_fault w 1); tidy].
      3: by destruct Hfault.
      all: steer; eexists; found.
    + intros Htl. unfold_run. rewrite Hopen. tidy.
      rewrite decide_False by done.
      destruct (TrustLevel.NewFraction (trustLevelStr fl)) as [tl err].
      cbn [snd] in Htl. subst err.
      steer; by eexists.
  - intros faults.
    rewrite (explicit_primary_result_without_faults w) by done.
    by rewrite (explicit_primary_result_without_faults (with_faults w faults)).
Qed.

Lemma providers_saved_before_construction_witness :
  let r := run Sample.calm Sample.explicit_primary "chain-A" ∅ in
  let pre := before_construction (trace r.2) in
  saved Sample.explicit_primary pre (db r.2)
  ∧ ∃ c, constructed (trace r.2) = [c].
Proof.
  pose proof (providers_saved_before_construction Sample.calm
                Sample.explicit_primary "chain-A" ∅) as H.
  destruct H as (_ & Hopen & _); [discriminate|].
  destruct (Hopen eq_refl) as (Hsaved & _ & Hbuilt).
  split; [apply Hsaved; reflexivity | apply Hbuilt; reflexivity].
Defined.

(** The run on a store that refuses every write: the failure is logged,
    the client is constructed after it, and the run succeeds. *)
Example broken_store_run :
  let r := run Sample.broken_store Sample.explicit_primary "chain-A" ∅ in
  r.1 = None
  ∧ before_construction (trace r.2)
    = [EvAllowLevel "info";
       EvInfo "Creating client..." "chainID" "chain-A";
       EvNewGoLevelDB "light-client-db" ".tendermint-light";
       EvSet "p" "http://A" (Some Sample.disk_error);
       EvError "Unable to save primary and or witness addresses"
         (Some (fmt_Errorf "failed to save primary provider: %w" []
                  Sample.disk_error))]
  ∧ length (constructed (trace r.2)) = 1%nat.
Proof. repeat split; vm_compute; reflexivity. Qed.

(** ** Serving *)

(** The proxy handed to the server carries the adjusted configuration. *)
Lemma served_config
    (w : World) (fl : Flags) (arg0 : string) (content : gmap string string)
    (p : Proxy) :
  p ∈ served (trace (run w fl arg0 content).2) →
  Cfg p = serverConfig w fl ∧ Addr p = listenAddr fl.
Proof. unfold_run. intros Hp. steer; members; done. Qed.

(** The server is started whenever the clients could be constructed. *)
Lemma served_when_constructed
    (w : World) (fl : Flags) (arg0 : string) (content : gmap string string) :
  reaches_construction w fl content = true →
  (∀ c, light_err w c = None) →
  (∀ remote ws, rpchttp_New_err w remote ws = None) →
  ∃ p, served (trace (run w fl arg0 content).2) = [p].
Proof.
  unfold reaches_construction, provider_resolved. intros Hreach Hlight Hrpc.
  apply andb_true_iff in Hreach as [Hprov Htl].
  apply bool_decide_eq_true in Htl.
  unfold_run. steer.
  all: try by eexists.
  all: try by match goal with
              | H : light_err _ _ = Some _ |- _ => rewrite Hlight in H
              | H : rpchttp_New_err _ _ _ = Some _ |- _ => rewrite Hrpc in H
              end.
Qed.

(** How a run that reaches the server ends: with the serve call, or with
    the log line when the call did not end with [http.ErrServerClosed];
    and it returns nil. *)
Lemma served_run_ends
    (w : World) (fl : Flags) (arg0 : string) (content : gmap string string)
    (p : Proxy) :
  let r := run w fl arg0 content in
  p ∈ served (trace r.2) →
  r.1 = None
  ∧ last (trace r.2)
    = Some (if isnt_ErrServerClosed (ListenAndServe_result w p)
            then EvError "proxy ListenAndServe" (ListenAndServe_result w p)
            else EvListenAndServe p).
Proof.
  cbv zeta. unfold_run. intros Hp.
  destruct (NewGoLevelDB_err w); tidy; [by members|].
  steer; members; cbn [last]; first [done | congruence].
Qed.

(** C6, as the code has it.  When the serve loop ends, the run returns
    nil whatever the loop ended with.  If it ended with
    [http.ErrServerClosed] nothing is logged after it; any other outcome
    is logged as an error, and is not returned. *)
Theorem serve_outcome_logged_not_returned
    (w : World) (fl : Flags) (arg0 : string) (content : gmap string string)
    (p : Proxy) :
  let r := run w fl arg0 content in
  p ∈ served (trace r.2) →
  r.1 = None
  ∧ (ListenAndServe_result w p = Some http_ErrServerClosed →
     last (trace r.2) = Some (EvListenAndServe p))
  ∧ (ListenAndServe_result w p ≠ Some http_ErrServerClosed →
     last (trace r.2)
     = Some (EvError "proxy ListenAndServe" (ListenAndServe_result w p))).
Proof.
  intros r Hp.
  destruct (served_run_ends w fl arg0 content p Hp) as [Hret Hlast].
  fold r in Hret, Hlast. split; [done|]. rewrite Hlast.
  split; intros Hres.
  - by rewrite Hres.
  - by destruct (ListenAndServe_result w p) as [[]|].
Qed.

Lemma serve_outcome_logged_not_returned_witness :
  let r := run Sample.busy_port Sample.explicit_primary "chain-A" ∅ in
  let p := {| Addr := "tcp://localhost:8888";
              Cfg := serverConfig Sample.busy_port Sample.explicit_primary;
              ProxyClient :=
                ("http://A",
                 NewHTTPClientFromTrustedStore "chain-A"
                   (trustingPeriod defaultFlags) "http://A" [] "chain-A"
                   SequentialVerification) |} in
  r.1 = None
  ∧ (ListenAndServe_result Sample.busy_port p = Some http_ErrServerClosed →
     last (trace r.2) = Some (EvListenAndServe p))
  ∧ (ListenAndServe_result Sample.busy_port p ≠ Some http_ErrServerClosed →
     last (trace r.2)
     = Some (EvError "proxy ListenAndServe"
               (ListenAndServe_result Sample.busy_port p))).
Proof.
  apply (serve_outcome_logged_not_returned Sample.busy_port
           Sample.explicit_primary "chain-A" ∅).
  vm_compute. apply list_elem_of_here.
Defined.

(** C6, as stated, fails: the listener cannot bind its address, the serve
    call returns that error, the run logs it and returns nil instead of
    the error. *)
Lemma bind_error_is_not_returned :
  let r := run Sample.busy_port Sample.explicit_primary "chain-A" ∅ in
  (∃ p, served (trace r.2) = [p]
        ∧ ListenAndServe_result Sample.busy_port p
          = Some Sample.addr_in_use)
  ∧ last (trace r.2)
    = Some (EvError "proxy ListenAndServe" (Some Sample.addr_in_use))
  ∧ r.1 = None
  ∧ r.1 ≠ Some Sample.addr_in_use.
Proof.
  split_and!.
  - eexists. split; vm_compute; reflexivity.
  - vm_compute. reflexivity.
  - vm_compute. reflexivity.
  - vm_compute. discriminate.
Qed.

(** A graceful shutdown: nothing is logged after the serve call. *)
Example graceful_shutdown_run :
  let r := run Sample.calm Sample.explicit_primary "chain-A" ∅ in
  r.1 = None
  ∧ EvListenAndServe <$> served (trace r.2) = option_list (last (trace r.2)).
Proof. split; vm_compute; reflexivity. Qed.

(** *** The write timeout *)




(** * Further properties *)

(** ** Splitting at a separator *)

Lemma Split_length s sep :
  length (Split s sep) = S (occurrences sep s).
Proof.
  induction s as [|c rest IH]; cbn [Split occurrences]; [done|].
  destruct (Ascii.eqb c sep); cbn [length]; [by rewrite IH|].
  destruct (Split rest sep); cbn [length] in *; [done|lia].
Qed.

Lemma Split_pieces s sep :
  Forall (λ piece, occurrences sep piece = 0%nat) (Split s sep).
Proof.
  induction s as [|c rest IH]; cbn [Split].
  - by repeat constructor.
  - destruct (Ascii.eqb c sep) eqn:E; [by constructor|].
    destruct (Split rest sep) as [|piece pieces].
    + repeat constructor. cbn [occurrences]. by rewrite E.
    + inversion_clear IH as [|? ? Hpiece Hpieces].
      constructor; [|done]. cbn [occurrences]. by rewrite E.
Qed.

(** ** The provider record, continued *)

(** X1. When the first write of [saveProviders] fails, the error names
    the primary, the second write is not attempted and the store is left
    as it was. *)
Theorem saveProviders_first_write_fails
    (w : World) (p ws : string) (s : State) (e : error) :
  db_fault w (ops s) = Some e →
  let r := saveProviders w p ws s in
  r.1 = Some (fmt_Errorf "failed to save primary provider: %w" [] e)
  ∧ db r.2 = db s
  ∧ ops r.2 = S (ops s)
  ∧ trace r.2 = (trace s ++ [EvSet "p" p (Some e)])%list.
Proof.
  intros Hfault. cbv zeta.
  unfold saveProviders, Set_, mbind, M_bind, mret, M_ret.
  cbn [db ops trace fst snd]. by rewrite Hfault.
Qed.

Lemma saveProviders_first_write_fails_witness :
  let s := initial Sample.stored_BCD in
  let r := saveProviders (Scenario.fault_at 0) "http://A" "" s in
  r.1 = Some (fmt_Errorf "failed to save primary provider: %w" []
                Sample.disk_error)
  ∧ db r.2 = db s
  ∧ ops r.2 = S (ops s)
  ∧ trace r.2 = (trace s ++ [EvSet "p" "http://A" (Some Sample.disk_error)])%list.
Proof.
  apply (saveProviders_first_write_fails (Scenario.fault_at 0) "http://A" ""
           (initial Sample.stored_BCD) Sample.disk_error).
  reflexivity.
Defined.

(** X2. When the second write of [saveProviders] fails, the error names
    the witnesses and the save is left half done: the store holds the new
    primary next to the witnesses entry it had before. *)
Theorem saveProviders_second_write_fails
    (w : World) (p ws : string) (s : State) (e : error) :
  db_fault w (ops s) = None →
  db_fault w (S (ops s)) = Some e →
  let r := saveProviders w p ws s in
  r.1 = Some (fmt_Errorf "failed to save witness providers: %w" [] e)
  ∧ db r.2 !! "p" = Some p
  ∧ db r.2 !! "w" = db s !! "w".
Proof.
  intros H0 H1. cbv zeta.
  unfold saveProviders, Set_, mbind, M_bind, mret, M_ret.
  cbn [db ops trace fst snd]. rewrite H0. cbn [db ops trace fst snd].
  rewrite H1. cbn [db ops trace fst snd].
  split_and!; [done | by simplify_map_eq | by simplify_map_eq].
Qed.

Lemma saveProviders_second_write_fails_witness :
  let s := initial Sample.stored_BCD in
  let r := saveProviders (Scenario.fault_at 1) "http://A" "" s in
  r.1 = Some (fmt_Errorf "failed to save witness providers: %w" []
                Sample.disk_error)
  ∧ db r.2 !! "p" = Some "http://A"
  ∧ db r.2 !! "w" = db s !! "w".
Proof.
  apply (saveProviders_second_write_fails (Scenario.fault_at 1) "http://A" ""
           (initial Sample.stored_BCD) Sample.disk_error).
  - reflexivity.
  - reflexivity.
Defined.

(** X3. [saveProviders] returns nil exactly when both writes go through,
    and then the store holds the two entries and every other key is as it
    was. *)
Theorem saveProviders_success
    (w : World) (p ws : string) (s : State) :
  let r := saveProviders w p ws s in
  (r.1 = None ↔ db_fault w (ops s) = None ∧ db_fault w (S (ops s)) = None)
  ∧ (r.1 = None →
     db r.2 !! "p" = Some p
     ∧ db r.2 !! "w" = Some ws
     ∧ ∀ k, k ≠ "p" → k ≠ "w" → db r.2 !! k = db s !! k).
Proof.
  cbv zeta. unfold saveProviders, Set_, mbind, M_bind, mret, M_ret.
  cbn [db ops trace fst snd].
  destruct (db_fault w (ops s)); cbn [db ops trace fst snd].
  { split; [split; [done | by intros [? _]] | done]. }
  destruct (db_fault w (S (ops s))); cbn [db ops trace fst snd].
  { split; [split; [done | by intros [_ ?]] | done]. }
  split; [done|]. intros _.
  split_and!; [by simplify_map_eq | by simplify_map_eq |].
  intros k Hp Hw. by rewrite !lookup_insert_ne.
Qed.

Lemma saveProviders_success_witness :
  let s := initial Sample.stored_BCD in
  let r := saveProviders Sample.calm "http://A" "" s in
  db r.2 !! "p" = Some "http://A"
  ∧ db r.2 !! "w" = Some ""
  ∧ ∀ k, k ≠ "p" → k ≠ "w" → db r.2 !! k = db s !! k.
Proof.
  apply (saveProviders_success Sample.calm "http://A" ""
           (initial Sample.stored_BCD)).
  reflexivity.
Defined.

(** X4. [checkForExistingProviders] only reads: the store is left as it
    was.  It fails exactly when one of its two reads fails, and then it
    returns the empty primary and the one empty witness. *)
Theorem checkForExistingProviders_reads_only (w : World) (s : State) :
  let r := checkForExistingProviders w s in
  db r.2 = db s
  ∧ (r.1.2 = None
     ↔ db_fault w (ops s) = None ∧ db_fault w (S (ops s)) = None)
  ∧ (r.1.2 ≠ None → r.1.1 = ("", [""])).
Proof.
  cbv zeta. unfold checkForExistingProviders, Get, mbind, M_bind, mret, M_ret.
  cbn [db ops trace fst snd].
  destruct (db_fault w (ops s)); cbn [db ops trace fst snd].
  { split_and!; [done | split; [done | by intros [? _]] | done]. }
  destruct (db_fault w (S (ops s))); cbn [db ops trace fst snd].
  - split_and!; [done | split; [done | by intros [_ ?]] | done].
  - by split_and!.
Qed.

Lemma checkForExistingProviders_reads_only_witness :
  let s := initial Sample.stored_BCD in
  let r := checkForExistingProviders (Scenario.fault_at 1) s in
  db r.2 = db s
  ∧ (r.1.2 = None
     ↔ db_fault (Scenario.fault_at 1) (ops s) = None
       ∧ db_fault (Scenario.fault_at 1) (S (ops s)) = None)
  ∧ (r.1.2 ≠ None → r.1.1 = ("", [""])).
Proof.
  apply (checkForExistingProviders_reads_only (Scenario.fault_at 1)
           (initial Sample.stored_BCD)).
Defined.

(** X5. The witnesses [checkForExistingProviders] returns are never the
    empty sequence: there is one more of them than there are commas in
    the stored string, none of them contains a comma, and joined by
    commas they give the stored string back. *)
Theorem loaded_witnesses_shape (w : World) (s : State) :
  db_fault w (ops s) = None →
  db_fault w (S (ops s)) = None →
  let stored := string_of_bytes (db s !! "w") in
  let ws := (checkForExistingProviders w s).1.1.2 in
  length ws = S (occurrences "," stored)
  ∧ Forall (λ a, occurrences "," a = 0%nat) ws
  ∧ Join ws "," = stored.
Proof.
  intros H0 H1. cbv zeta.
  rewrite (checkForExistingProviders_readable w s H0 H1). cbn [fst snd].
  split_and!; [apply Split_length | apply Split_pieces | apply Join_Split].
Qed.

Lemma loaded_witnesses_shape_witness :
  let s := initial Sample.stored_BCD in
  let stored := string_of_bytes (db s !! "w") in
  let ws := (checkForExistingProviders Sample.calm s).1.1.2 in
  length ws = S (occurrences "," stored)
  ∧ Forall (λ a, occurrences "," a = 0%nat) ws
  ∧ Join ws "," = stored.
Proof.
  apply (loaded_witnesses_shape Sample.calm (initial Sample.stored_BCD)).
  - reflexivity.
  - reflexivity.
Defined.

(** X6. The witnesses derived from the [--witnesses] flag: the sequence
    is empty exactly when the flag is, no address contains a comma, and
    joined by commas the addresses give the flag back. *)
Theorem witnessesFromFlag_shape (fl : Flags) :
  (witnessesFromFlag fl = [] ↔ witnessAddrsJoined fl = "")
  ∧ Forall (λ a, occurrences "," a = 0%nat) (witnessesFromFlag fl)
  ∧ Join (witnessesFromFlag fl) "," = witnessAddrsJoined fl.
Proof.
  unfold witnessesFromFlag. case_decide as Hflag.
  - rewrite Hflag. by split_and!.
  - split_and!; [|apply Split_pieces | apply Join_Split].
    split; [|done]. intros Hnil. by apply Split_nonempty in Hnil.
Qed.

(** X7. Saving what was loaded changes nothing: on a store that holds
    both entries, loading the providers and saving the loaded primary
    with the loaded witnesses joined by commas leaves the store as it
    was. *)
Theorem load_then_save (w : World) (s : State) (p0 w0 : string) :
  db s !! "p" = Some p0 →
  db s !! "w" = Some w0 →
  (∀ n, db_fault w n = None) →
  let loaded := checkForExistingProviders w s in
  db (saveProviders w loaded.1.1.1 (Join loaded.1.1.2 ",") loaded.2).2
  = db s.
Proof.
  intros Hp Hw Hcalm. cbv zeta.
  pose proof (checkForExistingProviders_readable w s (Hcalm _) (Hcalm _))
    as Hload.
  assert (db (checkForExistingProviders w s).2 = db s) as Hdb.
  { unfold checkForExistingProviders, Get, mbind, M_bind, mret, M_ret.
    cbn [db ops trace fst snd]. rewrite (Hcalm (ops s)).
    cbn [db ops trace fst snd]. by rewrite (Hcalm (S (ops s))). }
  destruct (checkForExistingProviders w s) as [[[p ws] err] s1].
  cbn [fst snd] in *. simplify_eq.
  rewrite Join_Split, Hp, Hw. cbn [string_of_bytes default].
  unfold saveProviders, Set_, mbind, M_bind, mret, M_ret.
  cbn [db ops trace fst snd]. rewrite (Hcalm (ops s1)).
  cbn [db ops trace fst snd]. rewrite (Hcalm (S (ops s1))).
  cbn [db ops trace fst snd]. rewrite Hdb.
  rewrite (insert_id _ "p" p0) by done. by rewrite insert_id.
Qed.

Lemma load_then_save_witness :
  let s := initial Sample.stored_BCD in
  let loaded := checkForExistingProviders Sample.calm s in
  db (saveProviders Sample.calm loaded.1.1.1 (Join loaded.1.1.2 ",")
        loaded.2).2
  = db s.
Proof.
  apply (load_then_save Sample.calm (initial Sample.stored_BCD)
           "http://B" "http://C,http://D").
  - reflexivity.
  - reflexivity.
  - reflexivity.
Defined.

(** X8. Saving and then loading, with the store working, gives the
    primary back, and witnesses that are the pieces of the saved string:
    joined by commas they are the saved string again. *)
Theorem providers_round_trip (w : World) (p ws : string) (s : State) :
  (∀ n, db_fault w n = None) →
  let loaded := (checkForExistingProviders w (saveProviders w p ws s).2).1 in
  loaded = (p, Split ws ",", None)
  ∧ Join loaded.1.2 "," = ws.
Proof.
  intros Hcalm. cbv zeta.
  assert ((saveProviders w p ws s).1 = None) as Hsave.
  { unfold saveProviders, Set_, mbind, M_bind, mret, M_ret.
    cbn [db ops trace fst snd]. rewrite (Hcalm (ops s)).
    cbn [db ops trace fst snd]. by rewrite (Hcalm (S (ops s))). }
  rewrite (save_then_load w p ws s Hsave (Hcalm _) (Hcalm _)).
  split; [done|]. apply Join_Split.
Qed.

Lemma providers_round_trip_witness :
  let loaded :=
    (checkForExistingProviders Sample.calm
       (saveProviders Sample.calm "http://B" "http://C,http://D"
          (initial ∅)).2).1 in
  loaded = ("http://B", Split "http://C,http://D" ",", None)
  ∧ Join loaded.1.2 "," = "http://C,http://D".
Proof.
  apply (providers_round_trip Sample.calm "http://B" "http://C,http://D"
           (initial ∅)).
  reflexivity.
Defined.

(** ** The run, stage by stage *)

(** X9. When the store cannot be opened the run stops there: it returns
    the error wrapped as a db error, has logged and opened and nothing
    else, and has not touched the store. *)
Theorem db_open_failure_stops_the_run
    (w : World) (fl : Flags) (arg0 : string) (content : gmap string string)
    (e : error) :
  NewGoLevelDB_err w = Some e →
  let r := run w fl arg0 content in
  r.1 = Some (fmt_Errorf "can't create a db: %w" [] e)
  ∧ trace r.2 = [EvAllowLevel (if verbose fl then "debug" else "info");
                 EvInfo "Creating client..." "chainID" arg0;
                 EvNewGoLevelDB "light-client-db" (home fl)]
  ∧ db r.2 = content
  ∧ ops r.2 = 0%nat.
Proof.
  intros Hopen. cbv zeta.
  unfold run, runProxy, NewGoLevelDB, emit, initial, mbind, M_bind, mret,
    M_ret. cbn [db ops trace fst snd app]. by rewrite Hopen.
Qed.

Lemma db_open_failure_stops_the_run_witness :
  let r := run Scenario.no_store Sample.fresh_root "chain-A"
             Sample.stored_BCD in
  r.1 = Some (fmt_Errorf "can't create a db: %w" [] Scenario.locked)
  ∧ trace r.2 = [EvAllowLevel
                   (if verbose Sample.fresh_root then "debug" else "info");
                 EvInfo "Creating client..." "chainID" "chain-A";
                 EvNewGoLevelDB "light-client-db" (home Sample.fresh_root)]
  ∧ db r.2 = Sample.stored_BCD
  ∧ ops r.2 = 0%nat.
Proof.
  apply (db_open_failure_stops_the_run Scenario.no_store Sample.fresh_root
           "chain-A" Sample.stored_BCD Scenario.locked).
  reflexivity.
Defined.

(** X10. Without [-p], a store that opens but fails on one of the two
    reads makes the run return the retrieval error wrapping that fault,
    before any network I/O and with the store as it was. *)
Theorem unreadable_store_fails_early
    (w : World) (fl : Flags) (arg0 : string) (content : gmap string string)
    (e : error) :
  primaryAddr fl = "" →
  NewGoLevelDB_err w = None →
  db_fault w 0 = Some e ∨ (db_fault w 0 = None ∧ db_fault w 1 = Some e) →
  let r := run w fl arg0 content in
  r.1 = Some (ErrRetrieve e)
  ∧ Forall (λ ev, is_network ev = false) (trace r.2)
  ∧ db r.2 = content.
Proof.
  intros Hflag Hopen Hfault. cbv zeta. unfold_run.
  rewrite Hopen. tidy. rewrite decide_True by done. tidy.
  destruct Hfault as [H0 | [H0 H1]]; rewrite H0; tidy; [|rewrite H1; tidy].
  all: split_and!; [done | by repeat constructor | done].
Qed.

Lemma unreadable_store_fails_early_witness :
  let r := run (Scenario.fault_at 1) defaultFlags "chain-A"
             Sample.stored_BCD in
  r.1 = Some (ErrRetrieve Sample.disk_error)
  ∧ Forall (λ ev, is_network ev = false) (trace r.2)
  ∧ db r.2 = Sample.stored_BCD.
Proof.
  apply (unreadable_store_fails_early (Scenario.fault_at 1) defaultFlags
           "chain-A" Sample.stored_BCD Sample.disk_error).
  - reflexivity.
  - reflexivity.
  - right. split; reflexivity.
Defined.

(** X11. With [-p] the command never reads the provider entries, and a
    light client is constructed against the primary of [-p] and the
    witnesses of [--witnesses], whatever the store holds. *)
Theorem explicit_primary_never_reads_store
    (w : World) (fl : Flags) (arg0 : string) (content : gmap string string) :
  primaryAddr fl ≠ "" →
  let r := run w fl arg0 content in
  Forall (λ ev, is_Get ev = false) (trace r.2)
  ∧ (∀ c, c ∈ constructed (trace r.2) →
       client_primary c = primaryAddr fl
       ∧ client_witnesses c = witnessesFromFlag fl).
Proof.
  intros Hflag. cbv zeta. unfold_run.
  destruct (NewGoLevelDB_err w); tidy.
  { split; [by repeat constructor | by intros; members]. }
  repeat (case_decide; [done|]). steer.
  all: split; [by repeat constructor | intros c Hc; by members].
Qed.

Lemma explicit_primary_never_reads_store_witness :
  let r := run Sample.calm Scenario.with_witnesses "chain-A"
             Sample.stored_B in
  Forall (λ ev, is_Get ev = false) (trace r.2)
  ∧ (∀ c, c ∈ constructed (trace r.2) →
       client_primary c = primaryAddr Scenario.with_witnesses
       ∧ client_witnesses c = witnessesFromFlag Scenario.with_witnesses).
Proof.
  apply (explicit_primary_never_reads_store Sample.calm
           Scenario.with_witnesses "chain-A" Sample.stored_B).
  discriminate.
Defined.

(** X12. Without [-p] the command never writes the provider entries.  A
    light client is constructed against the stored primary, which is not
    empty, and against the pieces of the stored witnesses string. *)
Theorem resume_never_writes_store
    (w : World) (fl : Flags) (arg0 : string) (content : gmap string string) :
  primaryAddr fl = "" →
  let r := run w fl arg0 content in
  Forall (λ ev, is_Set ev = false) (trace r.2)
  ∧ (∀ c, c ∈ constructed (trace r.2) →
       client_primary c = string_of_bytes (content !! "p")
       ∧ client_primary c ≠ ""
       ∧ client_witnesses c
         = Split (string_of_bytes (content !! "w")) ",").
Proof.
  intros Hflag. cbv zeta. unfold_run.
  destruct (NewGoLevelDB_err w); tidy.
  { split; [by repeat constructor | by intros; members]. }
  rewrite decide_True by done. steer.
  all: split; [by repeat constructor | intros c Hc; by members].
Qed.

Lemma resume_never_writes_store_witness :
  let r := run Sample.calm defaultFlags "chain-A" Sample.stored_BCD in
  Forall (λ ev, is_Set ev = false) (trace r.2)
  ∧ (∀ c, c ∈ constructed (trace r.2) →
       client_primary c = string_of_bytes (Sample.stored_BCD !! "p")
       ∧ client_primary c ≠ ""
       ∧ client_witnesses c
         = Split (string_of_bytes (Sample.stored_BCD !! "w")) ",").
Proof.
  apply (resume_never_writes_store Sample.calm defaultFlags "chain-A"
           Sample.stored_BCD).
  reflexivity.
Defined.

(** The scenario of a restart, evaluated. *)
Example resume_from_stored_BCD :
  constructed (trace (run Sample.calm defaultFlags "chain-A"
                        Sample.stored_BCD).2)
  = [NewHTTPClientFromTrustedStore "chain-A" (trustingPeriod defaultFlags)
       "http://B" ["http://C"; "http://D"] "chain-A"
       SequentialVerification].
Proof. vm_compute. reflexivity. Qed.

(** X13. The command's own use of the store: in every run it performs at
    most two operations on it, it either only reads or only writes, and
    whatever it writes is the ["p"] entry with the primary of [-p] or the
    ["w"] entry with the string of [--witnesses]. *)
Theorem run_store_operations
    (w : World) (fl : Flags) (arg0 : string) (content : gmap string string) :
  let tr := trace (run w fl arg0 content).2 in
  (length (store_ops tr) <= 2)%nat
  ∧ (Forall (λ ev, is_Get ev = false) tr
     ∨ Forall (λ ev, is_Set ev = false) tr)
  ∧ Forall (writes_provider_entry fl) tr.
Proof.
  cbv zeta. unfold_run.
  destruct (NewGoLevelDB_err w); tidy.
  { split_and!; [cbn; lia | left; by repeat constructor
                | by repeat constructor]. }
  case_decide; steer.
  all: split_and!;
    [ cbn [store_ops is_Get is_Set orb length]; lia
    | first [ left; by repeat constructor | right; by repeat constructor ]
    | repeat constructor; cbn; tauto ].
Qed.

(** What a run with [-p] leaves in a working store. *)
Lemma explicit_primary_store
    (w : World) (fl : Flags) (arg0 : string) (content : gmap string string) :
  primaryAddr fl ≠ "" →
  NewGoLevelDB_err w = None →
  db_fault w 0 = None →
  db_fault w 1 = None →
  db (run w fl arg0 content).2
  = <["w" := witnessAddrsJoined fl]> (<["p" := primaryAddr fl]> content).
Proof.
  intros Hp Hopen H0 H1. unfold_run.
  rewrite Hopen. tidy. rewrite decide_False by done.
  repeat first [ rewrite H0 | rewrite H1 | progress tidy ].
  steer; done.
Qed.

(** X14. With [-p] on a working store the providers are written before
    anything else is checked: the store holds them after the run whether
    the run succeeds or fails later, for instance on an invalid trust
    level or a client that cannot be constructed. *)
Theorem providers_persisted_whatever_follows
    (w : World) (fl : Flags) (arg0 : string) (content : gmap string string) :
  primaryAddr fl ≠ "" →
  NewGoLevelDB_err w = None →
  db_fault w 0 = None →
  db_fault w 1 = None →
  let r := run w fl arg0 content in
  db r.2 !! "p" = Some (primaryAddr fl)
  ∧ db r.2 !! "w" = Some (witnessAddrsJoined fl).
Proof.
  intros Hp Hopen H0 H1. cbv zeta.
  rewrite (explicit_primary_store w fl arg0 content Hp Hopen H0 H1).
  by simplify_map_eq.
Qed.

Lemma providers_persisted_whatever_follows_witness :
  let r := run Sample.calm Sample.bad_trust_level "chain-A"
             Sample.stored_BCD in
  db r.2 !! "p" = Some (primaryAddr Sample.bad_trust_level)
  ∧ db r.2 !! "w" = Some (witnessAddrsJoined Sample.bad_trust_level).
Proof.
  apply (providers_persisted_whatever_follows Sample.calm
           Sample.bad_trust_level "chain-A" Sample.stored_BCD).
  - discriminate.
  - reflexivity.
  - reflexivity.
  - reflexivity.
Defined.



(** X16. The server is only started with a light client that was
    constructed without error, wrapped around a transport client to that
    client's own primary, which was constructed without error as well;
    it listens on the address of [--laddr]. *)
Theorem served_proxy_is_sound
    (w : World) (fl : Flags) (arg0 : string) (content : gmap string string)
    (p : Proxy) :
  let r := run w fl arg0 content in
  p ∈ served (trace r.2) →
  ∃ c, constructed (trace r.2) = [c]
       ∧ ProxyClient p = (client_primary c, c)
       ∧ light_err w c = None
       ∧ rpchttp_New_err w (client_primary c) "/websocket" = None
       ∧ Addr p = listenAddr fl.
Proof.
  cbv zeta. unfold_run. intros Hp.
  destruct (NewGoLevelDB_err w); tidy; [by members|].
  steer; members.
  all: by eexists.
Qed.

Lemma served_proxy_is_sound_witness :
  let r := run Sample.calm Sample.explicit_primary "chain-A" ∅ in
  ∃ c, constructed (trace r.2) = [c]
       ∧ ProxyClient Scenario.proxy_A = (client_primary c, c)
       ∧ light_err Sample.calm c = None
       ∧ rpchttp_New_err Sample.calm (client_primary c) "/websocket" = None
       ∧ Addr Scenario.proxy_A = listenAddr Sample.explicit_primary.
Proof.
  apply (served_proxy_is_sound Sample.calm Sample.explicit_primary
           "chain-A" ∅ Scenario.proxy_A).
  vm_compute. apply list_elem_of_here.
Defined.

(** X17. When the light client cannot be constructed the run returns the
    constructor's error as it is, and neither a transport client is
    constructed nor the server started. *)
Theorem light_error_is_returned
    (w : World) (fl : Flags) (arg0 : string) (content : gmap string string)
    (c : Client) (e : error) :
  let r := run w fl arg0 content in
  c ∈ constructed (trace r.2) →
  light_err w c = Some e →
  r.1 = Some e
  ∧ Forall (λ ev, is_RPCNew ev = false) (trace r.2)
  ∧ served (trace r.2) = [].
Proof.
  cbv zeta. unfold_run. intros Hc Herr.
  destruct (NewGoLevelDB_err w); tidy; [by members|].
  steer; members.
  all: try congruence.
  all: split_and!; [congruence | by repeat constructor | done].
Qed.

Lemma light_error_is_returned_witness :
  let r := run Scenario.light_fails Sample.explicit_primary "chain-A" ∅ in
  r.1 = Some Scenario.no_trusted_header
  ∧ Forall (λ ev, is_RPCNew ev = false) (trace r.2)
  ∧ served (trace r.2) = [].
Proof.
  apply (light_error_is_returned Scenario.light_fails
           Sample.explicit_primary "chain-A" ∅ Scenario.client_A
           Scenario.no_trusted_header).
  - vm_compute. apply list_elem_of_here.
  - reflexivity.
Defined.

(** X18. When the light client is constructed but the transport client
    is not, the run returns the transport's error wrapped with the
    primary address, and the server is not started. *)
Theorem transport_error_is_wrapped
    (w : World) (fl : Flags) (arg0 : string) (content : gmap string string)
    (c : Client) (e : error) :
  let r := run w fl arg0 content in
  c ∈ constructed (trace r.2) →
  light_err w c = None →
  rpchttp_New_err w (client_primary c) "/websocket" = Some e →
  r.1 = Some (fmt_Errorf "http client for %s: %w" [client_primary c] e)
  ∧ served (trace r.2) = [].
Proof.
  cbv zeta. unfold_run. intros Hc Hlight Hrpc.
  destruct (NewGoLevelDB_err w); tidy; [by members|].
  steer; members; cbn [client_primary] in *.
  all: try congruence.
  all: split; [congruence | done].
Qed.

Lemma transport_error_is_wrapped_witness :
  let r := run Scenario.rpc_fails Sample.explicit_primary "chain-A" ∅ in
  r.1 = Some (fmt_Errorf "http client for %s: %w"
                [client_primary Scenario.client_A] Scenario.bad_remote)
  ∧ served (trace r.2) = [].
Proof.
  apply (transport_error_is_wrapped Scenario.rpc_fails
           Sample.explicit_primary "chain-A" ∅ Scenario.client_A
           Scenario.bad_remote).
  - vm_compute. apply list_elem_of_here.
  - reflexivity.
  - reflexivity.
Defined.

(** X19. The run returns nil exactly when it got as far as starting the
    server; every failure before that is returned as an error. *)
Theorem nil_iff_served
    (w : World) (fl : Flags) (arg0 : string) (content : gmap string string) :
  let r := run w fl arg0 content in
  r.1 = None ↔ ∃ p, served (trace r.2) = [p].
Proof.
  cbv zeta. unfold_run. steer.
  all: split; [intros ?; try done; by eexists | intros [p Hp]; done].
Qed.

(** X20. What the light client is constructed from: the positional
    argument is its chain identifier and the name space of its store, the
    trusting period is the one of [--trusting-period], a fresh root is
    the height and hash of the command line, and a skipping strategy
    carries the trust level parsed from [--trust-level]. *)
Theorem client_built_from_command_line
    (w : World) (fl : Flags) (arg0 : string) (content : gmap string string)
    (c : Client) :
  c ∈ constructed (trace (run w fl arg0 content).2) →
  client_chainID c = arg0
  ∧ client_store c = arg0
  ∧ client_period c = trustingPeriod fl
  ∧ (∀ opts, client_trustOptions c = Some opts →
       Height opts = trustedHeight fl ∧ Hash opts = trustedHash fl)
  ∧ (∀ tl, client_mode c = SkippingVerification tl →
       TrustLevel.NewFraction (trustLevelStr fl) = (tl, None)).
Proof.
  unfold_run. intros Hc.
  destruct (NewGoLevelDB_err w); tidy; [by members|].
  steer; members.
  all: cbn [client_chainID client_store client_period client_trustOptions
            client_mode Period].
  all: split_and!; try done.
  all: try by intros ? [= <-].
  all: by intros ? [= <-]; cbn.
Qed.

Lemma client_built_from_command_line_witness :
  let c := NewHTTPClient "chain-A"
             {| Period := trustingPeriod Sample.fresh_root;
                Height := 100; Hash := [Byte.xde; Byte.xad] |}
             "http://A" [] "chain-A"
             (SkippingVerification {| Numerator := 1; Denominator := 3 |}) in
  client_chainID c = "chain-A"
  ∧ client_store c = "chain-A"
  ∧ client_period c = trustingPeriod Sample.fresh_root
  ∧ (∀ opts, client_trustOptions c = Some opts →
       Height opts = trustedHeight Sample.fresh_root
       ∧ Hash opts = trustedHash Sample.fresh_root)
  ∧ (∀ tl, client_mode c = SkippingVerification tl →
       TrustLevel.NewFraction (trustLevelStr Sample.fresh_root)
       = (tl, None)).
Proof.
  apply (client_built_from_command_line Sample.calm Sample.fresh_root
           "chain-A" ∅).
  vm_compute. apply list_elem_of_here.
Defined.

(** X21. The configuration the server is started with: the body and
    header limits of the RPC configuration, the connection cap of
    [--max-open-connections], the default read timeout, and, as long as
    the broadcast-commit timeout plus one second is an [int64], a write
    timeout above the broadcast-commit timeout and not below the
    default. *)
Theorem served_configuration
    (w : World) (fl : Flags) (arg0 : string) (content : gmap string string)
    (p : Proxy) :
  let T := TimeoutBroadcastTxCommit (config_RPC w) in
  p ∈ served (trace (run w fl arg0 content).2) →
  MaxBodyBytes (Cfg p) = RPC_MaxBodyBytes (config_RPC w)
  ∧ MaxHeaderBytes (Cfg p) = RPC_MaxHeaderBytes (config_RPC w)
  ∧ MaxOpenConnections (Cfg p) = maxOpenConnections fl
  ∧ ReadTimeout (Cfg p) = ReadTimeout (DefaultConfig w)
  ∧ (int64_range (T + Second) →
     T < WriteTimeout (Cfg p)
     ∧ WriteTimeout (DefaultConfig w) <= WriteTimeout (Cfg p)).
Proof.
  intros T Hp.
  destruct (served_config w fl arg0 content p Hp) as [-> _].
  unfold serverConfig.
  cbn [WriteTimeout MaxBodyBytes MaxHeaderBytes MaxOpenConnections
       ReadTimeout]. fold T.
  destruct (Z.leb_spec (WriteTimeout (DefaultConfig w)) T) as [Hle|Hgt];
    cbn [WriteTimeout MaxBodyBytes MaxHeaderBytes MaxOpenConnections
         ReadTimeout].
  - split_and!; try done. intros Hrange.
    unfold add64. rewrite Z.mul_1_l, wrap64_id by done.
    unfold Second. lia.
  - split_and!; try done; intros _; lia.
Qed.

Lemma served_configuration_witness :
  let w := Sample.calm in
  let p := Scenario.proxy_A in
  let T := TimeoutBroadcastTxCommit (config_RPC w) in
  MaxBodyBytes (Cfg p) = RPC_MaxBodyBytes (config_RPC w)
  ∧ MaxHeaderBytes (Cfg p) = RPC_MaxHeaderBytes (config_RPC w)
  ∧ MaxOpenConnections (Cfg p) = maxOpenConnections Sample.explicit_primary
  ∧ ReadTimeout (Cfg p) = ReadTimeout (DefaultConfig w)
  ∧ (int64_range (T + Second) →
     T < WriteTimeout (Cfg p)
     ∧ WriteTimeout (DefaultConfig w) <= WriteTimeout (Cfg p)).
Proof.
  apply (served_configuration Sample.calm Sample.explicit_primary
           "chain-A" ∅ Scenario.proxy_A).
  vm_compute. apply list_elem_of_here.
Defined.

(** X22. Which verification strategy a constructed client gets: on the
    fresh path the one [--sequential] names, on the resume path the other
    one. *)
Theorem verification_strategy_by_path
    (w : World) (fl : Flags) (arg0 : string) (content : gmap string string)
    (c : Client) :
  c ∈ constructed (trace (run w fl arg0 content).2) →
  is_sequential (client_mode c)
  = if is_fresh c then sequential fl else negb (sequential fl).
Proof.
  intros Hc. destruct (is_fresh c) eqn:Hfresh.
  - by apply (fresh_mode_follows_flag w fl arg0 content).
  - by apply (resume_mode_opposes_flag w fl arg0 content).
Qed.

Lemma verification_strategy_by_path_witness :
  is_sequential (client_mode Scenario.client_A)
  = if is_fresh Scenario.client_A
    then sequential Sample.explicit_primary
    else negb (sequential Sample.explicit_primary).
Proof.
  apply (verification_strategy_by_path Sample.calm Sample.explicit_primary
           "chain-A" ∅ Scenario.client_A).
  vm_compute. apply list_elem_of_here.
Defined.
